(** * Redirect prefixing in the versioned prototype routers

    A shallow embedding of [app/views/v2/routing.js] and [app/routes.js]:
    the middleware that replaces [res.redirect] by a function prepending
    [req.baseUrl] to root-relative targets, the four POST handlers of a
    version group, and the mounting of the groups under [/v1] and [/v2].

    JavaScript strings are modelled by [string]; the two string operations
    the code uses ([startsWith] and [+]) only compare and copy characters,
    so nothing depends on the width of a character.

    The host framework is outside the sources.  Its redirect is represented
    by the target it is called with, its path matching is a parameter of
    the routers, and [req.baseUrl] inside a mounted router is the mount
    path as written in [router.use]. *)

From Stdlib Require Import Bool List Ascii String ZArith DecimalString Lia.
Import ListNotations.
Local Open Scope string_scope.

(** ** JavaScript values and completions *)

Module Js.

(** The values a caller can hand to [res.redirect].  Only a string has a
    [startsWith] method. *)
Inductive Value : Type :=
| Undefined
| Null
| Boolean (b : bool)
| Number (n : Z)
| Str (s : string).

Inductive Error : Type :=
| TypeError (msg : string).

(** The outcome of a call: a value, or a thrown exception. *)
Inductive Completion (A : Type) : Type :=
| Normal (a : A)
| Throw (e : Error).
Arguments Normal {A} a.
Arguments Throw {A} e.

Definition bind {A B : Type} (c : Completion A) (k : A -> Completion B)
  : Completion B :=
  match c with
  | Normal a => k a
  | Throw e => Throw e
  end.

(** [s.startsWith(search)], with the default position 0. *)
Definition startsWith (s search : string) : bool := String.prefix search s.

(** Property access [url.startsWith] followed by the call: a string
    answers, [undefined] and [null] have no properties, and numbers and
    booleans have no such method. *)
Definition callStartsWith (v : Value) (search : string) : Completion bool :=
  match v with
  | Str s => Normal (startsWith s search)
  | Undefined => Throw (TypeError "Cannot read properties of undefined")
  | Null => Throw (TypeError "Cannot read properties of null")
  | Boolean _ | Number _ => Throw (TypeError "url.startsWith is not a function")
  end.

(** [a + v] for a string [a]: string concatenation after [ToString v].
    The code only reaches it with a string on the right; other operands
    are kept for totality, numbers through their decimal form. *)
Definition toString (v : Value) : string :=
  match v with
  | Str s => s
  | Undefined => "undefined"
  | Null => "null"
  | Boolean true => "true"
  | Boolean false => "false"
  | Number n =>
      match n with
      | Z0 => "0"
      | Zpos p => NilEmpty.string_of_uint (Pos.to_uint p)
      | Zneg p => "-" ++ NilEmpty.string_of_uint (Pos.to_uint p)
      end
  end.

Definition plus (a : string) (v : Value) : Value := Str (a ++ toString v).

End Js.

Notation "x <- c ;; k" := (Js.bind c (fun x => k))
  (at level 61, c at next level, right associativity).

(** ** Requests, responses and the host framework's redirect *)

Inductive Method : Type :=
| GET
| POST
| OtherMethod (name : string).

(** The part of the request object the code reads.  [baseUrl] is the path
    the current router is mounted at; [url] is the path below it. *)
Record Request : Type := mkRequest
  { method : Method;
    baseUrl : string;
    url : string }.

(** What one request's handling has done so far: [sent] holds the target the
    host framework's own redirect was called with, if it was called. *)
Record State : Type := mkState
  { req : Request;
    sent : option Js.Value }.

Definition RedirectFn : Type := Js.Value -> State -> Js.Completion State.

(** The response object, as a method table: the middleware assigns to its
    [redirect] slot. *)
Record Response : Type := mkResponse
  { redirect : RedirectFn }.

(** The framework's redirect, an external collaborator: it is represented
    by the record of the target it was handed. *)
Definition hostRedirect : RedirectFn :=
  fun target st => Js.Normal {| req := req st; sent := Some target |}.

Definition hostResponse : Response := {| redirect := hostRedirect |}.

(** ** [app/views/v2/routing.js] *)

(** The condition and the assignment of the replacement function:
<<
      if (url.startsWith('/') && !url.startsWith(req.baseUrl)) {
        url = req.baseUrl + url;
      }
>>
    The result is the value of [url] after the statement.  [&&] evaluates
    its right operand only when the left one is true. *)
Definition rewriteUrl (base : string) (target : Js.Value)
  : Js.Completion Js.Value :=
  absolute <- Js.callStartsWith target "/" ;;
  missing <- (if absolute
              then (carried <- Js.callStartsWith target base ;;
                    Js.Normal (negb carried))
              else Js.Normal false) ;;
  Js.Normal (if missing then Js.plus base target else target).

(** [res.redirect = function(url) { ...; return originalRedirect.call(this, url); }].
    [req.baseUrl] is read when the function is called. *)
Definition prefixedRedirect (originalRedirect : RedirectFn) : RedirectFn :=
  fun target st =>
    target' <- rewriteUrl (baseUrl (req st)) target ;;
    originalRedirect target' st.

(** The middleware: keep the current [res.redirect], install the
    replacement, call [next()]. *)
Definition prefixMiddleware (res : Response) : Response :=
  let originalRedirect := redirect res in
  {| redirect := prefixedRedirect originalRedirect |}.

(** A route handler receives the response object and calls its redirect. *)
Definition Handler : Type := Response -> State -> Js.Completion State.

Definition redirectTo (target : string) : Handler :=
  fun res st => redirect res (Js.Str target) st.

(** The four [subRouter.post] registrations, in order. *)
Definition postRoutes : list (string * Handler) :=
  [ ("/question-1", redirectTo "/question-2");
    ("/question-2", redirectTo "/question-1");
    ("/nested/question-1", redirectTo "/nested/question-2");
    ("/nested/question-2", redirectTo "/nested/question-1") ].

(** How a router's pass over a request ends: a handler answered, or every
    layer called [next()] and the request goes on with the response object
    as the layers left it. *)
Inductive Flow : Type :=
| Done (st : State)
| Pass (res : Response) (st : State).

Section Host.

(** Path matching belongs to the host framework.  [routeMatch pattern path]
    tells whether a route registered at [pattern] takes the path;
    [mountMatch mountpath path] gives the path below [mountpath] when the
    request is under it. *)
Variable routeMatch : string -> string -> bool.
Variable mountMatch : string -> string -> option string.

Definition isPost (m : Method) : bool :=
  match m with
  | POST => true
  | _ => false
  end.

(** The first route that takes the request runs; its handler never calls
    [next()]. *)
Fixpoint runRoutes (routes : list (string * Handler)) (res : Response)
  (st : State) : Js.Completion Flow :=
  match routes with
  | [] => Js.Normal (Pass res st)
  | (pattern, handler) :: rest =>
      if isPost (method (req st)) && routeMatch pattern (url (req st))
      then (st' <- handler res st ;; Js.Normal (Done st'))
      else runRoutes rest res st
  end.

(** The router the module returns: the middleware, then the routes. *)
Definition routing (res : Response) (st : State) : Js.Completion Flow :=
  runRoutes postRoutes (prefixMiddleware res) st.

(** ** [app/routes.js] *)

(** Modelled from the spec: [app/views/v1/routing.js] is not among the
    sources; the README gives one [routing.js] listing for every version
    folder, so the v1 module is the v2 module. *)
Definition v1_routing : Response -> State -> Js.Completion Flow := routing.

Definition Router : Type := Response -> State -> Js.Completion Flow.

(** [router.use(mountpath, sub)]: a request under [mountpath] enters [sub]
    with the mount path appended to [req.baseUrl] and removed from
    [req.url]; when [sub] passes, both are restored. *)
Definition mounted (mountpath : string) (sub : Router) (res : Response)
  (st : State) : Js.Completion Flow :=
  let r := req st in
  match mountMatch mountpath (url r) with
  | None => Js.Normal (Pass res st)
  | Some below =>
      let inner := {| method := method r;
                      baseUrl := baseUrl r ++ mountpath;
                      url := below |} in
      flow <- sub res {| req := inner; sent := sent st |} ;;
      match flow with
      | Done st' => Js.Normal (Done st')
      | Pass res' st' => Js.Normal (Pass res' {| req := r; sent := sent st' |})
      end
  end.

Fixpoint runStack (stack : list Router) (res : Response) (st : State)
  : Js.Completion Flow :=
  match stack with
  | [] => Js.Normal (Pass res st)
  | layer :: rest =>
      flow <- layer res st ;;
      match flow with
      | Done st' => Js.Normal (Done st')
      | Pass res' st' => runStack rest res' st'
      end
  end.

Definition router : Router :=
  runStack [ mounted "/v1" v1_routing; mounted "/v2" routing ].

(** A request to the application, and to one version group alone: the
    target handed to the host's redirect, if any. *)
Definition sentBy (flow : Flow) : option Js.Value :=
  match flow with
  | Done st => sent st
  | Pass _ st => sent st
  end.

Definition request (r : Router) (m : Method) (base path : string)
  : Js.Completion (option Js.Value) :=
  flow <- r hostResponse {| req := {| method := m; baseUrl := base; url := path |};
                            sent := None |} ;;
  Js.Normal (sentBy flow).

End Host.

(** Plain matchers to run the model with: a route takes exactly its own
    path, and a mount takes the paths that continue it with a [/]. *)
Definition exactRoute (pattern path : string) : bool := String.eqb pattern path.

Definition segmentMount (mountpath path : string) : option string :=
  if String.eqb path mountpath then Some "/"
  else if Js.startsWith path (mountpath ++ "/")
       then Some (substring (String.length mountpath)
                    (String.length path - String.length mountpath) path)
       else None.

(** ** Notions the specification uses *)

(** The specification's path-segment reading of "the target is inside the
    group": the target is the prefix itself or continues it with a [/]. *)
Definition segmentPrefix (prefix target : string) : bool :=
  String.eqb target prefix || Js.startsWith target (prefix ++ "/").

(** The specification's "URL carrying a scheme": a letter, then letters,
    digits, [+], [-] or [.], then a colon. *)
Definition isAlpha (c : ascii) : bool :=
  let n := nat_of_ascii c in
  ((65 <=? n) && (n <=? 90) || (97 <=? n) && (n <=? 122))%nat.

Definition isDigit (c : ascii) : bool :=
  let n := nat_of_ascii c in
  ((48 <=? n) && (n <=? 57))%nat.

Definition isSchemeChar (c : ascii) : bool :=
  isAlpha c || isDigit c
  || Ascii.eqb c "+" || Ascii.eqb c "-" || Ascii.eqb c ".".

Fixpoint schemeEnds (s : string) : bool :=
  match s with
  | EmptyString => false
  | String c s' =>
      if Ascii.eqb c ":" then true else isSchemeChar c && schemeEnds s'
  end.

Definition hasScheme (s : string) : bool :=
  match s with
  | EmptyString => false
  | String c s' => isAlpha c && schemeEnds s'
  end.

(** The redirect targets the group's handlers name. *)
Definition handlerTargets : list string :=
  [ "/question-2"; "/question-1"; "/nested/question-2"; "/nested/question-1" ].

(** ** Reading the route table *)

(** The [subRouter.post] registrations as data: the path of each route and
    the target its handler passes to [res.redirect]. *)
Definition routeTable : list (string * string) :=
  [ ("/question-1", "/question-2");
    ("/question-2", "/question-1");
    ("/nested/question-1", "/nested/question-2");
    ("/nested/question-2", "/nested/question-1") ].


(** The value of [url] after the [if] statement when it held the string
    [p] before. *)
Definition prefixedTarget (base p : string) : string :=
  if Js.startsWith p "/" && negb (Js.startsWith p base) then base ++ p else p.


(** ** Facts about [startsWith] *)

Lemma startsWith_empty (s : string) : Js.startsWith s "" = true.
Proof. destruct s; reflexivity. Qed.

Lemma startsWith_cons (c d : ascii) (s p : string) :
  Js.startsWith (String c s) (String d p)
  = if ascii_dec d c then Js.startsWith s p else false.
Proof. unfold Js.startsWith; simpl. destruct (ascii_dec d c); reflexivity. Qed.

Lemma startsWith_append (p s : string) : Js.startsWith (p ++ s) p = true.
Proof.
  induction p as [|c p IH]; cbn [String.append].
  - apply startsWith_empty.
  - rewrite startsWith_cons. destruct (ascii_dec c c); [exact IH | congruence].
Qed.

Lemma startsWith_split (s p : string) :
  Js.startsWith s p = true <-> exists r, s = p ++ r.
Proof.
  split.
  - revert s. induction p as [|d p IH]; intros s H.
    + exists s. reflexivity.
    + destruct s as [|c s]; [discriminate H|].
      rewrite startsWith_cons in H.
      destruct (ascii_dec d c) as [->|]; [|discriminate H].
      destruct (IH s H) as [r ->]. exists r. reflexivity.
  - intros [r ->]. apply startsWith_append.
Qed.

Lemma append_assoc (a b c : string) : (a ++ b) ++ c = a ++ (b ++ c).
Proof. induction a as [|x a IH]; simpl; [reflexivity | now rewrite IH]. Qed.

Lemma startsWith_trans (s p q : string) :
  Js.startsWith s p = true -> Js.startsWith p q = true ->
  Js.startsWith s q = true.
Proof.
  intros Hp Hq.
  apply startsWith_split in Hp as [r ->].
  apply startsWith_split in Hq as [r' ->].
  rewrite append_assoc. apply startsWith_append.
Qed.

(** ** The replacement on string targets *)

(** On a string the two method calls succeed, so the statement reduces to
    a choice between the target and the concatenation. *)
Lemma rewriteUrl_string (base p : string) :
  rewriteUrl base (Js.Str p)
  = Js.Normal (Js.Str (if Js.startsWith p "/" && negb (Js.startsWith p base)
                       then base ++ p else p)).
Proof.
  unfold rewriteUrl; simpl.
  destruct (Js.startsWith p "/"); simpl; [|reflexivity].
  destruct (Js.startsWith p base); reflexivity.
Qed.

Lemma prefixedRedirect_string (orig : RedirectFn) (p : string) (st : State) :
  prefixedRedirect orig (Js.Str p) st
  = orig (Js.Str (if Js.startsWith p "/"
                     && negb (Js.startsWith p (baseUrl (req st)))
                  then baseUrl (req st) ++ p else p)) st.
Proof. unfold prefixedRedirect. rewrite rewriteUrl_string. reflexivity. Qed.

(** A target that is not a string makes the replacement throw before the
    original redirect is reached. *)
Lemma prefixedRedirect_not_string (orig : RedirectFn) (v : Js.Value)
  (st : State) :
  (forall s, v <> Js.Str s) ->
  exists e, prefixedRedirect orig v st = Js.Throw e.
Proof.
  intros H. destruct v; try (eexists; reflexivity).
  exfalso. eapply H. reflexivity.
Qed.

(** ** The version group *)

Lemma handler_targets :
  map snd postRoutes = map redirectTo handlerTargets.
Proof. reflexivity. Qed.

(** Whatever route takes the request, the host's redirect receives one of
    the handlers' targets, rewritten for the current [req.baseUrl]. *)
Lemma runRoutes_sent rm (routes : list (string * Handler)) (targets : list string)
  (st st' : State) :
  map snd routes = map redirectTo targets ->
  runRoutes rm routes (prefixMiddleware hostResponse) st = Js.Normal (Done st') ->
  exists t, In t targets /\
    sent st' = Some (Js.Str (if Js.startsWith t "/"
                                && negb (Js.startsWith t (baseUrl (req st)))
                             then baseUrl (req st) ++ t else t)).
Proof.
  revert targets. induction routes as [|[pattern h] routes IH];
    intros targets Hmap Hrun.
  - discriminate Hrun.
  - destruct targets as [|t targets]; [discriminate Hmap|].
    simpl in Hmap. injection Hmap as Hh Hrest. subst h.
    simpl in Hrun.
    destruct (isPost (method (req st)) && rm pattern (url (req st))).
    + unfold redirectTo in Hrun. simpl in Hrun.
      rewrite prefixedRedirect_string in Hrun. simpl in Hrun.
      injection Hrun as <-. exists t. split; [left; reflexivity | reflexivity].
    + destruct (IH targets Hrest Hrun) as [t' [Hin Hs]].
      exists t'. split; [right; exact Hin | exact Hs].
Qed.

Lemma runRoutes_pass rm (routes : list (string * Handler)) (targets : list string)
  (res res' : Response) (st st' : State) :
  runRoutes rm routes res st = Js.Normal (Pass res' st') ->
  map snd routes = map redirectTo targets ->
  res' = res /\ st' = st.
Proof.
  revert targets. induction routes as [|[pattern h] routes IH];
    intros targets Hrun Hmap.
  - injection Hrun as <- <-. split; reflexivity.
  - destruct targets as [|t targets]; [discriminate Hmap|].
    simpl in Hmap. injection Hmap as Hh Hrest. subst h.
    simpl in Hrun.
    destruct (isPost (method (req st)) && rm pattern (url (req st))).
    + destruct (redirectTo t res st); discriminate Hrun.
    + exact (IH targets Hrun Hrest).
Qed.

Lemma group_sent rm (m : Method) (base path : string) (v : Js.Value) :
  request (routing rm) m base path = Js.Normal (Some v) ->
  exists t, In t handlerTargets /\
    v = Js.Str (if Js.startsWith t "/" && negb (Js.startsWith t base)
                then base ++ t else t).
Proof.
  unfold request, routing. intros H.
  destruct (runRoutes rm postRoutes (prefixMiddleware hostResponse) _)
    as [[st'|res' st']|e] eqn:Hrun; simpl in H; try discriminate H.
  - injection H as H.
    destruct (runRoutes_sent rm _ _ _ _ handler_targets Hrun)
      as [t [Hin Hs]].
    exists t. split; [exact Hin|]. simpl in Hs. congruence.
  - apply runRoutes_pass with (targets := handlerTargets) in Hrun;
      [|exact handler_targets].
    destruct Hrun as [_ ->]. discriminate H.
Qed.

(** ** The prefixing rule *)

(** C1. A target that starts with [/] and does not start with the prefix
    is rewritten to exactly [prefix ++ p], and that string is what the
    original redirect is called with, whatever the depth of the path. *)
Theorem rewrite_prepends_prefix (prefix p : string) :
  Js.startsWith p "/" = true ->
  Js.startsWith p prefix = false ->
  rewriteUrl prefix (Js.Str p) = Js.Normal (Js.Str (prefix ++ p))
  /\ forall (orig : RedirectFn) (st : State),
       baseUrl (req st) = prefix ->
       prefixedRedirect orig (Js.Str p) st = orig (Js.Str (prefix ++ p)) st.
Proof.
  intros Habs Hnot. split.
  - rewrite rewriteUrl_string, Habs, Hnot. reflexivity.
  - intros orig st <-. rewrite prefixedRedirect_string, Habs, Hnot.
    reflexivity.
Qed.

Lemma rewrite_prepends_prefix_witness :
  Js.startsWith "/nested/question-2" "/" = true
  /\ Js.startsWith "/nested/question-2" "/v1" = false
  /\ rewriteUrl "/v1" (Js.Str "/nested/question-2")
     = Js.Normal (Js.Str "/v1/nested/question-2").
Proof.
  split; [reflexivity|]. split; [reflexivity|].
  exact (proj1 (rewrite_prepends_prefix "/v1" "/nested/question-2"
                  eq_refl eq_refl)).
Defined.

Example top_level_target :
  rewriteUrl "/v2" (Js.Str "/question-1") = Js.Normal (Js.Str "/v2/question-1").
Proof. reflexivity. Qed.

Example nested_target :
  rewriteUrl "/v1" (Js.Str "/nested/question-2")
  = Js.Normal (Js.Str "/v1/nested/question-2").
Proof. reflexivity. Qed.

(** C3. After processing, a target that started with [/] and did not carry
    the mount prefix begins with it: the host's redirect is handed a string
    that starts with [req.baseUrl]. *)
Theorem final_target_carries_prefix (p : string) (st : State) :
  Js.startsWith p "/" = true ->
  Js.startsWith p (baseUrl (req st)) = false ->
  exists final,
    redirect (prefixMiddleware hostResponse) (Js.Str p) st
    = Js.Normal {| req := req st; sent := Some (Js.Str final) |}
    /\ Js.startsWith final (baseUrl (req st)) = true.
Proof.
  intros Habs Hnot. exists (baseUrl (req st) ++ p). split.
  - simpl. rewrite prefixedRedirect_string, Habs, Hnot. reflexivity.
  - apply startsWith_append.
Qed.

Lemma final_target_carries_prefix_witness :
  Js.startsWith "/question-2" "/" = true
  /\ Js.startsWith "/question-2" "/v1" = false
  /\ exists final,
    redirect (prefixMiddleware hostResponse) (Js.Str "/question-2")
      {| req := {| method := POST; baseUrl := "/v1"; url := "/question-1" |};
         sent := None |}
    = Js.Normal
        {| req := {| method := POST; baseUrl := "/v1"; url := "/question-1" |};
           sent := Some (Js.Str final) |}
    /\ Js.startsWith final "/v1" = true.
Proof.
  split; [reflexivity|]. split; [reflexivity|].
  exact (final_target_carries_prefix "/question-2"
           {| req := {| method := POST; baseUrl := "/v1"; url := "/question-1" |};
              sent := None |} eq_refl eq_refl).
Defined.

(** C4. The prefix check compares characters, not path segments: with the
    prefix [/v1] the target [/v10/question-1], which is outside the group
    by the segment reading, counts as already prefixed and passes
    unchanged. *)
Theorem prefix_check_ignores_segments :
  exists prefix target,
    Js.startsWith target "/" = true
    /\ Js.startsWith target prefix = true
    /\ segmentPrefix prefix target = false
    /\ rewriteUrl prefix (Js.Str target) = Js.Normal (Js.Str target)
    /\ rewriteUrl prefix (Js.Str target) <> Js.Normal (Js.Str (prefix ++ target)).
Proof.
  exists "/v1", "/v10/question-1".
  repeat split; try reflexivity. discriminate.
Qed.

(** C5. A target that starts with [/] and already starts with the mount
    prefix is left as it is. *)
Theorem prefixed_target_unchanged (prefix p : string) :
  Js.startsWith p "/" = true ->
  Js.startsWith p prefix = true ->
  rewriteUrl prefix (Js.Str p) = Js.Normal (Js.Str p)
  /\ forall (orig : RedirectFn) (st : State),
       baseUrl (req st) = prefix ->
       prefixedRedirect orig (Js.Str p) st = orig (Js.Str p) st.
Proof.
  intros Habs Hhas. split.
  - rewrite rewriteUrl_string, Habs, Hhas. reflexivity.
  - intros orig st <-. rewrite prefixedRedirect_string, Habs, Hhas.
    reflexivity.
Qed.

Lemma prefixed_target_unchanged_witness :
  Js.startsWith "/v1/question-2" "/" = true
  /\ Js.startsWith "/v1/question-2" "/v1" = true
  /\ rewriteUrl "/v1" (Js.Str "/v1/question-2")
     = Js.Normal (Js.Str "/v1/question-2")
  /\ rewriteUrl "/v1" (Js.Str "/v1/question-2")
     <> Js.Normal (Js.Str "/v1/v1/question-2").
Proof.
  pose proof (proj1 (prefixed_target_unchanged "/v1" "/v1/question-2"
                       eq_refl eq_refl)) as H.
  split; [reflexivity|]. split; [reflexivity|].
  split; [exact H | rewrite H; discriminate].
Defined.

(** C6. A target that does not start with [/] is left as it is. *)
Theorem relative_target_unchanged (prefix p : string) :
  Js.startsWith p "/" = false ->
  rewriteUrl prefix (Js.Str p) = Js.Normal (Js.Str p)
  /\ forall (orig : RedirectFn) (st : State),
       baseUrl (req st) = prefix ->
       prefixedRedirect orig (Js.Str p) st = orig (Js.Str p) st.
Proof.
  intros Hrel. split.
  - rewrite rewriteUrl_string, Hrel. reflexivity.
  - intros orig st _. rewrite prefixedRedirect_string, Hrel. reflexivity.
Qed.

Lemma relative_target_unchanged_witness :
  Js.startsWith "question-2" "/" = false
  /\ rewriteUrl "/v1" (Js.Str "question-2") = Js.Normal (Js.Str "question-2").
Proof.
  split; [reflexivity|].
  exact (proj1 (relative_target_unchanged "/v1" "question-2" eq_refl)).
Defined.

(** C7. Prefixing is idempotent: rewriting the rewritten target gives the
    rewritten target, for every prefix and every string; likewise the
    replacement installed over itself behaves as installed once. *)
Theorem rewrite_idempotent (prefix p : string) :
  (once <- rewriteUrl prefix (Js.Str p) ;; rewriteUrl prefix once)
  = rewriteUrl prefix (Js.Str p)
  /\ forall (orig : RedirectFn) (st : State),
       prefixedRedirect (prefixedRedirect orig) (Js.Str p) st
       = prefixedRedirect orig (Js.Str p) st.
Proof.
  assert (Hfix : forall base,
    let q := if Js.startsWith p "/" && negb (Js.startsWith p base)
             then base ++ p else p in
    (if Js.startsWith q "/" && negb (Js.startsWith q base)
     then base ++ q else q) = q).
  { intros base q. subst q.
    destruct (Js.startsWith p "/") eqn:Habs; simpl.
    - destruct (Js.startsWith p base) eqn:Hhas; simpl.
      + rewrite Habs, Hhas. reflexivity.
      + rewrite startsWith_append, andb_false_r. reflexivity.
    - rewrite Habs. reflexivity. }
  split.
  - rewrite rewriteUrl_string. cbn [Js.bind]. rewrite rewriteUrl_string.
    rewrite (Hfix prefix). reflexivity.
  - intros orig st. rewrite !prefixedRedirect_string.
    rewrite (Hfix (baseUrl (req st))). reflexivity.
Qed.

(** A string with a scheme starts with a letter, so not with [/]. *)
Lemma hasScheme_not_absolute (u : string) :
  hasScheme u = true -> Js.startsWith u "/" = false.
Proof.
  destruct u as [|c u]; [discriminate|].
  intros H. cbn [hasScheme] in H. apply andb_prop in H as [Hc _].
  rewrite startsWith_cons.
  destruct (ascii_dec "/" c) as [<-|]; [discriminate Hc | reflexivity].
Qed.

(** C8. A URL with a scheme, such as [https://example.com], does not begin
    with [/] and passes unchanged; a target is only ever changed when it
    begins with [/]. *)
Theorem external_url_unchanged (prefix u : string) :
  hasScheme u = true ->
  Js.startsWith u "/" = false
  /\ rewriteUrl prefix (Js.Str u) = Js.Normal (Js.Str u)
  /\ forall p, rewriteUrl prefix (Js.Str p) <> Js.Normal (Js.Str p) ->
               Js.startsWith p "/" = true.
Proof.
  intros Hs. pose proof (hasScheme_not_absolute u Hs) as Hrel.
  repeat split.
  - exact Hrel.
  - rewrite rewriteUrl_string, Hrel. reflexivity.
  - intros p Hp. rewrite rewriteUrl_string in Hp.
    destruct (Js.startsWith p "/"); [reflexivity|].
    exfalso. apply Hp. reflexivity.
Qed.

Lemma external_url_unchanged_witness :
  hasScheme "https://example.com" = true
  /\ rewriteUrl "/v1" (Js.Str "https://example.com")
     = Js.Normal (Js.Str "https://example.com").
Proof.
  split; [reflexivity|].
  exact (proj1 (proj2 (external_url_unchanged "/v1" "https://example.com"
                         eq_refl))).
Defined.

(** C9. On a string target the replacement never throws: the rewriting
    returns a string, which is the target itself or the prefix followed by
    the target, chosen by the leading-slash and prefix checks alone, and
    the host's redirect is reached with it. *)
Theorem rewrite_never_throws (prefix target : string) :
  exists out,
    rewriteUrl prefix (Js.Str target) = Js.Normal (Js.Str out)
    /\ (out = target \/ out = prefix ++ target)
    /\ out = (if Js.startsWith target "/" && negb (Js.startsWith target prefix)
              then prefix ++ target else target)
    /\ forall (m : Method) (path : string) (s : option Js.Value),
         let r := {| method := m; baseUrl := prefix; url := path |} in
         redirect (prefixMiddleware hostResponse) (Js.Str target)
           {| req := r; sent := s |}
         = Js.Normal {| req := r; sent := Some (Js.Str out) |}.
Proof.
  eexists. split; [apply rewriteUrl_string|]. split; [|split].
  - destruct (Js.startsWith target "/" && negb (Js.startsWith target prefix));
      [right | left]; reflexivity.
  - reflexivity.
  - intros m path s r. simpl. rewrite prefixedRedirect_string. reflexivity.
Qed.

(** C10. With the empty mount prefix the rewriting is the identity on
    strings, absolute or not, and the replacement calls the original
    redirect with the target as given. *)
Theorem empty_prefix_identity (target : string) :
  rewriteUrl "" (Js.Str target) = Js.Normal (Js.Str target)
  /\ forall (orig : RedirectFn) (m : Method) (path : string)
            (s : option Js.Value),
       let st := {| req := {| method := m; baseUrl := ""; url := path |};
                    sent := s |} in
       prefixedRedirect orig (Js.Str target) st = orig (Js.Str target) st.
Proof.
  split.
  - rewrite rewriteUrl_string, startsWith_empty, andb_false_r. reflexivity.
  - intros orig m path s st. rewrite prefixedRedirect_string. subst st. simpl.
    rewrite startsWith_empty, andb_false_r. reflexivity.
Qed.

(** ** No cross-redirects between versions *)

(** C2. Every redirect the group issues for a request handled with mount
    prefix [/v1] goes to [/v1] followed by one of the four handler targets:
    it starts with [/v1/] and not with [/v2/].  The same holds with the two
    prefixes exchanged. *)
Theorem group_never_cross_redirects (routeMatch : string -> string -> bool)
  (own other : string) (m : Method) (path : string) (v : Js.Value) :
  In (own, other) [("/v1", "/v2"); ("/v2", "/v1")] ->
  request (routing routeMatch) m own path = Js.Normal (Some v) ->
  exists t,
    In t handlerTargets
    /\ v = Js.Str (own ++ t)
    /\ Js.startsWith (own ++ t) (own ++ "/") = true
    /\ Js.startsWith (own ++ t) (other ++ "/") = false.
Proof.
  intros Hpair Hreq.
  destruct (group_sent routeMatch m own path v Hreq) as [t [Hin Hv]].
  exists t. split; [exact Hin|].
  unfold handlerTargets in Hin. simpl in Hpair, Hin.
  destruct Hpair as [Hp|[Hp|[]]]; injection Hp as <- <-;
    destruct Hin as [<-|[<-|[<-|[<-|[]]]]];
    (split; [exact Hv | split; reflexivity]).
Qed.

Lemma group_never_cross_redirects_witness :
  In ("/v1", "/v2") [("/v1", "/v2"); ("/v2", "/v1")]
  /\ request (routing exactRoute) POST "/v1" "/question-1"
     = Js.Normal (Some (Js.Str "/v1/question-2"))
  /\ exists t,
       In t handlerTargets
       /\ Js.Str "/v1/question-2" = Js.Str ("/v1" ++ t)
       /\ Js.startsWith ("/v1" ++ t) ("/v1" ++ "/") = true
       /\ Js.startsWith ("/v1" ++ t) ("/v2" ++ "/") = false.
Proof.
  split; [left; reflexivity|]. split; [reflexivity|].
  exact (group_never_cross_redirects exactRoute "/v1" "/v2" POST "/question-1"
           (Js.Str "/v1/question-2") (or_introl eq_refl) eq_refl).
Defined.

(** X12. Beyond the four handlers: whatever string a handler of the [own] group
    passes to the redirect, the final target does not start with the other
    group's prefix followed by [/]. *)
Theorem any_target_never_crosses (own other p : string) :
  In (own, other) [("/v1", "/v2"); ("/v2", "/v1")] ->
  exists final,
    rewriteUrl own (Js.Str p) = Js.Normal (Js.Str final)
    /\ Js.startsWith final (other ++ "/") = false.
Proof.
  intros Hpair. eexists. split; [apply rewriteUrl_string|].
  destruct (Js.startsWith p "/") eqn:Habs; cbn [andb].
  - destruct (Js.startsWith p own) eqn:Hhas; cbn [negb].
    + apply startsWith_split in Hhas as [r ->].
      simpl in Hpair. destruct Hpair as [Hp|[Hp|[]]]; injection Hp as <- <-;
        reflexivity.
    + simpl in Hpair. destruct Hpair as [Hp|[Hp|[]]]; injection Hp as <- <-;
        reflexivity.
  - destruct (Js.startsWith p (other ++ "/")) eqn:Hcross; [|reflexivity].
    assert (Hslash : Js.startsWith (other ++ "/") "/" = true).
    { simpl in Hpair. destruct Hpair as [Hp|[Hp|[]]]; injection Hp as <- <-;
        reflexivity. }
    rewrite (startsWith_trans _ _ _ Hcross Hslash) in Habs. discriminate Habs.
Qed.

(** The same for the application of [routes.js]: a request that is not
    under the other version's mount is only ever redirected below its own. *)
Theorem router_never_cross_redirects (routeMatch : string -> string -> bool)
  (mountMatch : string -> string -> option string)
  (own other : string) (m : Method) (path : string) (v : Js.Value) :
  In (own, other) [("/v1", "/v2"); ("/v2", "/v1")] ->
  mountMatch other path = None ->
  request (router routeMatch mountMatch) m "" path = Js.Normal (Some v) ->
  exists t,
    In t handlerTargets
    /\ v = Js.Str (own ++ t)
    /\ Js.startsWith (own ++ t) (own ++ "/") = true
    /\ Js.startsWith (own ++ t) (other ++ "/") = false.
Proof.
  intros Hpair Hother Hreq.
  assert (Hgroup : request (routing routeMatch) m own
                     match mountMatch own path with
                     | Some below => below
                     | None => path
                     end = Js.Normal (Some v)).
  { unfold request, router, runStack, mounted, v1_routing in Hreq.
    unfold request. simpl in Hreq, Hpair.
    destruct Hpair as [Hp|[Hp|[]]]; injection Hp as <- <-.
    - destruct (mountMatch "/v1" path) as [below|]; simpl in Hreq.
      + destruct (routing routeMatch hostResponse _) as [[st'|res' st']|e]
          eqn:Hrun; simpl in Hreq |- *; try discriminate Hreq.
        * exact Hreq.
        * unfold routing in Hrun.
          apply runRoutes_pass with (targets := handlerTargets) in Hrun;
            [|exact handler_targets].
          destruct Hrun as [_ ->]. simpl in Hreq.
          rewrite Hother in Hreq. discriminate Hreq.
      + rewrite Hother in Hreq. discriminate Hreq.
    - rewrite Hother in Hreq. simpl in Hreq.
      destruct (mountMatch "/v2" path) as [below|]; simpl in Hreq;
        [|discriminate Hreq].
      destruct (routing routeMatch hostResponse _) as [[st'|res' st']|e]
        eqn:Hrun; simpl in Hreq |- *; try discriminate Hreq.
      + exact Hreq.
      + unfold routing in Hrun.
        apply runRoutes_pass with (targets := handlerTargets) in Hrun;
          [|exact handler_targets].
        destruct Hrun as [_ ->]. discriminate Hreq. }
  destruct (group_sent routeMatch m own _ v Hgroup) as [t [Hin Hv]].
  exists t. split; [exact Hin|].
  unfold handlerTargets in Hin. simpl in Hpair, Hin.
  destruct Hpair as [Hp|[Hp|[]]]; injection Hp as <- <-;
    destruct Hin as [<-|[<-|[<-|[<-|[]]]]];
    (split; [exact Hv | split; reflexivity]).
Qed.

Example v1_question_1 :
  request (router exactRoute segmentMount) POST "" "/v1/question-1"
  = Js.Normal (Some (Js.Str "/v1/question-2")).
Proof. reflexivity. Qed.

Example v2_nested_question_2 :
  request (router exactRoute segmentMount) POST "" "/v2/nested/question-2"
  = Js.Normal (Some (Js.Str "/v2/nested/question-1")).
Proof. reflexivity. Qed.

Example get_is_not_redirected :
  request (router exactRoute segmentMount) GET "" "/v1/question-1"
  = Js.Normal None.
Proof. reflexivity. Qed.

(** ** Further properties of the replacement *)

Lemma append_length (a b : string) :
  String.length (a ++ b) = String.length a + String.length b.
Proof. induction a as [|c a IH]; simpl; [reflexivity | now rewrite IH]. Qed.

(** Only the empty string can be put in front of a string without changing
    it. *)
Lemma append_fixed (a p : string) : a ++ p = p -> a = "".
Proof.
  intros H. apply (f_equal String.length) in H. rewrite append_length in H.
  destruct a as [|c a]; [reflexivity|].
  simpl in H. lia.
Qed.

Lemma prefixedRedirect_prefixedTarget (orig : RedirectFn) (p : string)
  (st : State) :
  prefixedRedirect orig (Js.Str p) st
  = orig (Js.Str (prefixedTarget (baseUrl (req st)) p)) st.
Proof. apply prefixedRedirect_string. Qed.


Lemma prefixedTarget_empty_base (p : string) : prefixedTarget "" p = p.
Proof.
  unfold prefixedTarget. rewrite startsWith_empty, andb_false_r. reflexivity.
Qed.



(** X2. The replacement leaves a string target as it is exactly when the
    target does not start with [/] or already starts with [req.baseUrl];
    in every other case the target changes. *)
Theorem unchanged_exactly_when (base p : string) :
  rewriteUrl base (Js.Str p) = Js.Normal (Js.Str p)
  <-> (Js.startsWith p "/" = false \/ Js.startsWith p base = true).
Proof.
  rewrite rewriteUrl_string. split.
  - intros H.
    destruct (Js.startsWith p "/") eqn:Habs; [|left; reflexivity].
    destruct (Js.startsWith p base) eqn:Hhas; [right; reflexivity|].
    cbn [andb negb] in H. injection H as H.
    apply append_fixed in H. subst base.
    rewrite startsWith_empty in Hhas. discriminate Hhas.
  - intros [Hrel|Hhas].
    + rewrite Hrel. reflexivity.
    + rewrite Hhas, andb_false_r. reflexivity.
Qed.

(** X3. Every target that starts with [/] ends up starting with
    [req.baseUrl], whatever the mount path is, and the original target is
    the tail of the final one. *)
Theorem absolute_target_ends_under_base (base p : string) :
  Js.startsWith p "/" = true ->
  exists final,
    rewriteUrl base (Js.Str p) = Js.Normal (Js.Str final)
    /\ Js.startsWith final base = true
    /\ (final = p \/ final = base ++ p).
Proof.
  intros Habs. eexists. split; [apply rewriteUrl_string|].
  rewrite Habs. cbn [andb].
  destruct (Js.startsWith p base) eqn:Hhas; cbn [negb].
  - split; [exact Hhas | left; reflexivity].
  - split; [apply startsWith_append | right; reflexivity].
Qed.

Lemma absolute_target_ends_under_base_witness :
  Js.startsWith "/nested/question-2" "/nested" = true
  /\ exists final,
       rewriteUrl "/nested" (Js.Str "/nested/question-2")
       = Js.Normal (Js.Str final)
       /\ Js.startsWith final "/nested" = true
       /\ (final = "/nested/question-2"
           \/ final = "/nested" ++ "/nested/question-2").
Proof.
  split; [reflexivity|].
  exact (absolute_target_ends_under_base "/nested" "/nested/question-2"
           eq_refl).
Defined.

(** X4. A target that starts with two slashes counts as starting with [/]:
    under a mount path [/c...] whose second character is not a slash it is
    prefixed like any other path below the root. *)
Theorem double_slash_target_prefixed (c : ascii) (rest p : string) :
  c <> "/"%char ->
  rewriteUrl (String "/" (String c rest)) (Js.Str ("//" ++ p))
  = Js.Normal (Js.Str (String "/" (String c rest) ++ "//" ++ p)).
Proof.
  intros Hc. rewrite rewriteUrl_string.
  replace (Js.startsWith ("//" ++ p) "/") with true by reflexivity.
  replace (Js.startsWith ("//" ++ p) (String "/" (String c rest))) with false;
    [reflexivity|].
  cbn [String.append]. rewrite !startsWith_cons.
  destruct (ascii_dec "/" "/") as [_|Hn]; [|congruence].
  destruct (ascii_dec c "/") as [Heq|_]; [contradiction | reflexivity].
Qed.

Lemma double_slash_target_prefixed_witness :
  "v"%char <> "/"%char
  /\ rewriteUrl "/v1" (Js.Str "//example.com/x")
     = Js.Normal (Js.Str "/v1//example.com/x").
Proof.
  assert (H : "v"%char <> "/"%char) by discriminate.
  split; [exact H|].
  exact (double_slash_target_prefixed "v" "1" "example.com/x" H).
Defined.

(** ** Further properties of a version group *)

Lemma postRoutes_table :
  postRoutes = map (fun route => (fst route, redirectTo (snd route))) routeTable.
Proof. reflexivity. Qed.


(** The routes of a table are tried in order, for POST requests only. *)
Lemma runRoutes_table rm (table : list (string * string)) (res : Response)
  (st : State) :
  runRoutes rm (map (fun route => (fst route, redirectTo (snd route))) table)
    res st
  = match (if isPost (method (req st))
           then find (fun route => rm (fst route) (url (req st))) table
           else None) with
    | Some route =>
        st' <- redirect res (Js.Str (snd route)) st ;; Js.Normal (Done st')
    | None => Js.Normal (Pass res st)
    end.
Proof.
  induction table as [|[pattern target] table IH];
    cbn [map runRoutes find fst snd].
  - destruct (isPost (method (req st))); reflexivity.
  - rewrite IH. destruct (isPost (method (req st))); cbn [andb].
    + destruct (rm pattern (url (req st))); reflexivity.
    + reflexivity.
Qed.

Lemma routing_table rm (res : Response) (st : State) :
  routing rm res st
  = match (if isPost (method (req st))
           then find (fun route => rm (fst route) (url (req st))) routeTable
           else None) with
    | Some route =>
        st' <- prefixedRedirect (redirect res) (Js.Str (snd route)) st ;;
        Js.Normal (Done st')
    | None => Js.Normal (Pass (prefixMiddleware res) st)
    end.
Proof.
  unfold routing. rewrite postRoutes_table, runRoutes_table. reflexivity.
Qed.



(** X6. Under any mount path, a redirect issued by the group starts with
    the mount path.  It is the mount path followed by the handler's target
    unless the mount path is itself a beginning of that target, in which
    case the target goes out as the handler wrote it. *)
Theorem group_redirects_under_any_mount (routeMatch : string -> string -> bool)
  (m : Method) (base path : string) (v : Js.Value) :
  request (routing routeMatch) m base path = Js.Normal (Some v) ->
  exists t final,
    In t handlerTargets
    /\ v = Js.Str final
    /\ Js.startsWith final base = true
    /\ (Js.startsWith t base = false -> final = base ++ t)
    /\ (Js.startsWith t base = true -> final = t).
Proof.
  intros H. destruct (group_sent routeMatch m base path v H) as [t [Hin Hv]].
  exists t. eexists. split; [exact Hin|]. split; [exact Hv|].
  assert (Habs : Js.startsWith t "/" = true).
  { unfold handlerTargets in Hin. simpl in Hin.
    destruct Hin as [<-|[<-|[<-|[<-|[]]]]]; reflexivity. }
  rewrite Habs. cbn [andb].
  destruct (Js.startsWith t base) eqn:Hhas; cbn [negb].
  - split; [exact Hhas|]. split; [discriminate | reflexivity].
  - split; [apply startsWith_append|]. split; [reflexivity | discriminate].
Qed.

Lemma group_redirects_under_any_mount_witness :
  request (routing exactRoute) POST "/nested" "/nested/question-1"
  = Js.Normal (Some (Js.Str "/nested/question-2"))
  /\ exists t final,
       In t handlerTargets
       /\ Js.Str "/nested/question-2" = Js.Str final
       /\ Js.startsWith final "/nested" = true
       /\ (Js.startsWith t "/nested" = false -> final = "/nested" ++ t)
       /\ (Js.startsWith t "/nested" = true -> final = t).
Proof.
  split; [reflexivity|].
  exact (group_redirects_under_any_mount exactRoute POST "/nested"
           "/nested/question-1" (Js.Str "/nested/question-2") eq_refl).
Defined.

(** X7. For a version mounted at any path that begins with [/v] (as
    [/v3] or [/v10]), every redirect of the group is exactly the mount
    path followed by one of the four handler targets. *)
Theorem version_mount_redirects (routeMatch : string -> string -> bool)
  (rest : string) (m : Method) (path : string) (v : Js.Value) :
  request (routing routeMatch) m ("/v" ++ rest) path = Js.Normal (Some v) ->
  exists t, In t handlerTargets /\ v = Js.Str ("/v" ++ rest ++ t).
Proof.
  intros H.
  destruct (group_sent routeMatch m _ path v H) as [t [Hin Hv]].
  exists t. split; [exact Hin|]. subst v.
  unfold handlerTargets in Hin. simpl in Hin.
  destruct Hin as [<-|[<-|[<-|[<-|[]]]]]; reflexivity.
Qed.

Lemma version_mount_redirects_witness :
  request (routing exactRoute) POST ("/v" ++ "10") "/nested/question-2"
  = Js.Normal (Some (Js.Str "/v10/nested/question-1"))
  /\ exists t,
       In t handlerTargets
       /\ Js.Str "/v10/nested/question-1" = Js.Str ("/v" ++ "10" ++ t).
Proof.
  split; [reflexivity|].
  exact (version_mount_redirects exactRoute "10" POST "/nested/question-2"
           (Js.Str "/v10/nested/question-1") eq_refl).
Defined.

(** X8. The pages of a group send the user back and forth: when routes
    are told apart by their paths, a POST to a route is redirected to its
    partner under the mount path, and a POST to the partner is redirected
    back to the route. *)
Theorem partner_routes_swap (routeMatch : string -> string -> bool)
  (base pattern target : string) :
  (forall p q, In p (map fst routeTable) -> In q (map fst routeTable) ->
               routeMatch p q = String.eqb p q) ->
  (forall t, In t handlerTargets -> Js.startsWith t base = false) ->
  In (pattern, target) routeTable ->
  request (routing routeMatch) POST base pattern
  = Js.Normal (Some (Js.Str (base ++ target)))
  /\ request (routing routeMatch) POST base target
     = Js.Normal (Some (Js.Str (base ++ pattern))).
Proof.
  intros Hrm Hbase Hin.
  assert (Hfind : forall q, In q (map fst routeTable) ->
            find (fun route => routeMatch (fst route) q) routeTable
            = find (fun route => String.eqb (fst route) q) routeTable).
  { intros q Hq. unfold routeTable. cbn [find fst].
    rewrite !Hrm by (try exact Hq; simpl; tauto). reflexivity. }
  unfold request. rewrite !routing_table. cbn [req method url isPost].
  simpl in Hin.
  destruct Hin as [Hp|[Hp|[Hp|[Hp|[]]]]]; injection Hp as <- <-;
    (rewrite !Hfind by (simpl; tauto));
    cbn [find fst snd String.eqb Ascii.eqb Bool.eqb routeTable];
    cbn [redirect hostResponse];
    rewrite !prefixedRedirect_prefixedTarget; unfold prefixedTarget;
    cbn [req baseUrl];
    (rewrite !Hbase by (simpl; tauto)); split; reflexivity.
Qed.

Lemma partner_routes_swap_witness :
  In ("/question-1", "/question-2") routeTable
  /\ request (routing exactRoute) POST "/v1" "/question-1"
     = Js.Normal (Some (Js.Str ("/v1" ++ "/question-2")))
  /\ request (routing exactRoute) POST "/v1" "/question-2"
     = Js.Normal (Some (Js.Str ("/v1" ++ "/question-1"))).
Proof.
  assert (Hbase : forall t, In t handlerTargets ->
                            Js.startsWith t "/v1" = false).
  { intros t Hin. unfold handlerTargets in Hin. simpl in Hin.
    destruct Hin as [<-|[<-|[<-|[<-|[]]]]]; reflexivity. }
  split; [left; reflexivity|].
  exact (partner_routes_swap exactRoute "/v1" "/question-1" "/question-2"
           (fun p q _ _ => eq_refl) Hbase (or_introl eq_refl)).
Defined.

(** ** Further properties of the application router *)

Lemma state_eta (st : State) : {| req := req st; sent := sent st |} = st.
Proof. destruct st; reflexivity. Qed.

(** A version group behind [router.use]: the request enters it when the
    mount takes the path, and the response object keeps the replacement
    when no route answers. *)
Lemma mounted_routing rm mm (mountpath : string) (res : Response) (st : State) :
  mounted mm mountpath (routing rm) res st
  = match mm mountpath (url (req st)) with
    | None => Js.Normal (Pass res st)
    | Some below =>
        match (if isPost (method (req st))
               then find (fun route => rm (fst route) below) routeTable
               else None) with
        | Some route =>
            st' <- prefixedRedirect (redirect res) (Js.Str (snd route))
                     {| req := {| method := method (req st);
                                  baseUrl := baseUrl (req st) ++ mountpath;
                                  url := below |};
                        sent := sent st |} ;;
            Js.Normal (Done st')
        | None => Js.Normal (Pass (prefixMiddleware res) st)
        end
    end.
Proof.
  unfold mounted. destruct (mm mountpath (url (req st))) as [below|];
    [|reflexivity].
  rewrite routing_table. cbn [req method url sent].
  destruct (if isPost (method (req st)) then _ else None) as [route|].
  - destruct (prefixedRedirect _ _ _); reflexivity.
  - cbn [Js.bind sent]. rewrite state_eta. reflexivity.
Qed.

Lemma router_unfold rm mm (res : Response) (st : State) :
  router rm mm res st
  = (flow <- mounted mm "/v1" (routing rm) res st ;;
     match flow with
     | Done st' => Js.Normal (Done st')
     | Pass res' st' =>
         flow' <- mounted mm "/v2" (routing rm) res' st' ;;
         match flow' with
         | Done st'' => Js.Normal (Done st'')
         | Pass res'' st'' => Js.Normal (Pass res'' st'')
         end
     end).
Proof. reflexivity. Qed.

(** The response object after a pass of the application router: as it
    was, or with the replacement installed once per version entered. *)
Lemma router_pass rm mm (res res' : Response) (st st' : State) :
  router rm mm res st = Js.Normal (Pass res' st') ->
  st' = st
  /\ (match mm "/v1" (url (req st)), mm "/v2" (url (req st)) with
      | None, None => res' = res
      | Some _, Some _ => res' = prefixMiddleware (prefixMiddleware res)
      | _, _ => res' = prefixMiddleware res
      end).
Proof.
  rewrite router_unfold, mounted_routing.
  destruct (mm "/v1" (url (req st))) as [below1|].
  - destruct (if isPost (method (req st)) then _ else None) as [route|].
    + destruct (prefixedRedirect _ _ _); intros H; discriminate H.
    + cbn [Js.bind]. rewrite mounted_routing.
      destruct (mm "/v2" (url (req st))) as [below2|].
      * destruct (if isPost (method (req st)) then _ else None) as [route|].
        -- destruct (prefixedRedirect _ _ _); intros H; discriminate H.
        -- cbn [Js.bind]. intros H. injection H as <- <-.
           split; reflexivity.
      * cbn [Js.bind]. intros H. injection H as <- <-. split; reflexivity.
  - cbn [Js.bind]. rewrite mounted_routing.
    destruct (mm "/v2" (url (req st))) as [below2|].
    + destruct (if isPost (method (req st)) then _ else None) as [route|].
      * destruct (prefixedRedirect _ _ _); intros H; discriminate H.
      * cbn [Js.bind]. intros H. injection H as <- <-. split; reflexivity.
    + cbn [Js.bind]. intros H. injection H as <- <-. split; reflexivity.
Qed.


(** X10. The replacement stays on the response object after the router
    has passed a request on.  At the top level, where [req.baseUrl] is
    empty, it is harmless for strings: a later [res.redirect] with a string
    does what the redirect did before the router ran, and the request is
    as it was. *)
Theorem passed_response_redirects_as_before
  (routeMatch : string -> string -> bool)
  (mountMatch : string -> string -> option string)
  (res res' : Response) (st st' : State) :
  baseUrl (req st) = "" ->
  router routeMatch mountMatch res st = Js.Normal (Pass res' st') ->
  st' = st
  /\ forall p, redirect res' (Js.Str p) st' = redirect res (Js.Str p) st'.
Proof.
  intros Hbase Hpass.
  destruct (router_pass _ _ _ _ _ _ Hpass) as [-> Hres].
  split; [reflexivity|]. intros p.
  assert (Hone : forall r : Response,
            redirect (prefixMiddleware r) (Js.Str p) st
            = redirect r (Js.Str p) st).
  { intros r. cbn [redirect prefixMiddleware].
    rewrite prefixedRedirect_prefixedTarget, Hbase, prefixedTarget_empty_base.
    reflexivity. }
  destruct (mountMatch "/v1" (url (req st)));
    destruct (mountMatch "/v2" (url (req st))); subst res';
    rewrite ?Hone; reflexivity.
Qed.

Lemma passed_response_redirects_as_before_witness :
  router exactRoute segmentMount hostResponse
    {| req := {| method := GET; baseUrl := ""; url := "/v1/question-1" |};
       sent := None |}
  = Js.Normal (Pass (prefixMiddleware hostResponse)
    {| req := {| method := GET; baseUrl := ""; url := "/v1/question-1" |};
       sent := None |})
  /\ forall p,
       redirect (prefixMiddleware hostResponse) (Js.Str p)
         {| req := {| method := GET; baseUrl := ""; url := "/v1/question-1" |};
       sent := None |}
       = redirect hostResponse (Js.Str p)
         {| req := {| method := GET; baseUrl := ""; url := "/v1/question-1" |};
       sent := None |}.
Proof.
  split; [reflexivity|].
  exact (proj2 (passed_response_redirects_as_before exactRoute segmentMount
    hostResponse (prefixMiddleware hostResponse)
    {| req := {| method := GET; baseUrl := ""; url := "/v1/question-1" |};
       sent := None |}
    {| req := {| method := GET; baseUrl := ""; url := "/v1/question-1" |};
       sent := None |}
    eq_refl eq_refl)).
Defined.



Lemma any_target_never_crosses_witness :
  In ("/v1", "/v2") [("/v1", "/v2"); ("/v2", "/v1")]
  /\ exists final,
       rewriteUrl "/v1" (Js.Str "/v2/question-1") = Js.Normal (Js.Str final)
       /\ Js.startsWith final ("/v2" ++ "/") = false.
Proof.
  split; [left; reflexivity|].
  exact (any_target_never_crosses "/v1" "/v2" "/v2/question-1"
           (or_introl eq_refl)).
Defined.
